(** * Wanted-episodes page of the Bazarr front end

    A shallow embedding of
    - the table style presets ([useTableStyles], created with Mantine's
      [createStyles]), and
    - the page component [WantedSeriesView]
      (frontend/src/pages/Wanted/Series/index.tsx): its column schema, the
      cell renderers, the click handler of the "Missing" badges and the
      "search all" action,
    followed by the properties of the page that the specification states. *)

From Stdlib Require Import ZArith Lia Ascii.
From stdpp Require Import base strings gmap fin_maps list pretty.

Local Open Scope string_scope.
Local Set Warnings "-register-all".

(** ** Style presets *)

(** A CSS-in-JS rule set is a JavaScript object: property names (or nested
    selectors such as a media query) mapped to a string or to a nested rule
    set. *)
Inductive CSSValue : Type :=
| CSSStr (s : string)
| CSSObj (o : gmap string CSSValue).

Abbreviation CSSObject := (gmap string CSSValue).

(** The part of the Mantine theme the presets read: [theme.fn.smallerThan],
    the breakpoint predicate, which turns a breakpoint name into a selector. *)
Record MantineThemeFn : Type := { smallerThan : string -> string }.
Record MantineTheme : Type := { fn : MantineThemeFn }.

(** An object literal [{ k1: v1, ..., kn: vn }] defines its properties from
    left to right, a later definition of a key replacing an earlier one. *)
Definition object_literal {V : Type} (props : list (string * V)) : gmap string V :=
  foldl (fun o kv => <[kv.1 := kv.2]> o) ∅ props.

(** The function given to [createStyles] in the styles module. *)
Definition tableStyles (theme : MantineTheme) : gmap string CSSObject :=
  object_literal
    [ ("primary",
        object_literal
          [ ("display", CSSStr "inline-block");
            (smallerThan (fn theme) "sm",
              CSSObj (object_literal [ ("minWidth", CSSStr "12rem") ])) ]);
      ("noWrap", object_literal [ ("whiteSpace", CSSStr "nowrap") ]);
      ("select",
        object_literal
          [ ("display", CSSStr "inline-block");
            (smallerThan (fn theme) "sm",
              CSSObj (object_literal [ ("minWidth", CSSStr "10rem") ])) ]);
      ("width10em", object_literal [ ("width", CSSStr "10em") ]);
      ("width9em", object_literal [ ("width", CSSStr "9em") ]);
      ("width8em", object_literal [ ("width", CSSStr "8em") ]);
      ("width7em", object_literal [ ("width", CSSStr "7em") ]);
      ("width6em", object_literal [ ("width", CSSStr "6em") ]);
      ("width5em", object_literal [ ("width", CSSStr "5em") ]);
      ("width4em", object_literal [ ("width", CSSStr "4em") ]);
      ("width3em", object_literal [ ("width", CSSStr "3em") ]);
      ("width2em", object_literal [ ("width", CSSStr "2em") ]);
      ("width1em", object_literal [ ("width", CSSStr "1em") ]) ].

(** What a [createStyles] hook returns to a component: one generated class
    name per preset. *)
Record UseStylesResult : Type := { classes : gmap string string }.

(** Mantine's [createStyles]: the hook it returns evaluates the style function
    on the theme of the context and turns every rule set into a class name
    with the serialiser [css] of the styling engine. *)
Definition createStyles (css : CSSObject -> string)
    (getCssObject : MantineTheme -> gmap string CSSObject)
    (theme : MantineTheme) : UseStylesResult :=
  {| classes := css <$> getCssObject theme |}.

Definition useTableStyles (css : CSSObject -> string) : MantineTheme -> UseStylesResult :=
  createStyles css tableStyles.

(** ** Data model *)

(** Modelled from the spec: the record types [Language.Info] and
    [Wanted.Episode] are declared in the API typings, which are not among the
    sources. A missing-subtitle entry has a two-letter code, a display name
    and the hearing-impaired and forced flags; an episode record has the
    fields the page reads, the scene name being optional. *)
Record Language : Type := {
  code2 : string;
  name : string;
  hi : bool;
  forced : bool
}.

Record Episode : Type := {
  sonarrSeriesId : Z;
  sonarrEpisodeId : Z;
  seriesTitle : string;
  episode_number : string;
  episodeTitle : string;
  path : string;
  sceneName : option string;
  missing_subtitles : list Language
}.

(** The keys of an episode record that a column may name as its accessor, and
    the type of the field behind each key. *)
Inductive EpisodeKey : Type :=
| key_sonarrSeriesId
| key_sonarrEpisodeId
| key_seriesTitle
| key_episode_number
| key_episodeTitle
| key_path
| key_sceneName
| key_missing_subtitles.

Definition key_name (k : EpisodeKey) : string :=
  match k with
  | key_sonarrSeriesId => "sonarrSeriesId"
  | key_sonarrEpisodeId => "sonarrEpisodeId"
  | key_seriesTitle => "seriesTitle"
  | key_episode_number => "episode_number"
  | key_episodeTitle => "episodeTitle"
  | key_path => "path"
  | key_sceneName => "sceneName"
  | key_missing_subtitles => "missing_subtitles"
  end.

Definition FieldType (k : EpisodeKey) : Type :=
  match k with
  | key_sonarrSeriesId | key_sonarrEpisodeId => Z
  | key_seriesTitle | key_episode_number | key_episodeTitle | key_path => string
  | key_sceneName => option string
  | key_missing_subtitles => list Language
  end.

Definition field (k : EpisodeKey) (r : Episode) : FieldType k :=
  match k with
  | key_sonarrSeriesId => sonarrSeriesId r
  | key_sonarrEpisodeId => sonarrEpisodeId r
  | key_seriesTitle => seriesTitle r
  | key_episode_number => episode_number r
  | key_episodeTitle => episodeTitle r
  | key_path => path r
  | key_sceneName => sceneName r
  | key_missing_subtitles => missing_subtitles r
  end.

(** The identifiers are numbers that hold integers. A template literal
    converts a number with [ToString], which for a safe integer is its decimal
    numeral. *)
Definition Number_isSafeInteger (n : Z) : Prop :=
  (- (2 ^ 53) < n < 2 ^ 53)%Z.

Definition Number_toString (n : Z) : string := pretty n.

(** The argument of the subtitle download mutation, and the form inside it. *)
Module FormType.
Record Subtitle : Type := {
  language : string;
  hi : bool;
  forced : bool
}.

Record EpisodeSubtitle : Type := {
  seriesId : Z;
  episodeId : Z;
  form : Subtitle
}.

(** The argument of the series action mutation. *)
Record SeriesAction : Type := { action : string }.
End FormType.

(** Modelled from the spec: the enumeration [TaskGroup] is declared in the
    task module, which is not among the sources. The page names its member
    [SearchSubtitle], the "search subtitle" task category; the other
    categories are kept by their label. *)
Inductive TaskGroup : Type :=
| SearchSubtitle
| OtherTaskGroup (label : string).

(** ** Collaborators and their calls *)

Section Page.

(** [AsyncFn] is the type of the references to the asynchronous functions that
    the query hooks hand out; [Query] is the result of the pagination hook.
    [css] is the class-name serialiser of the styling engine and [BuildKey]
    the helper of the utilities module that builds the key of a list item. *)
Context {AsyncFn Query : Type}.
Variable css : CSSObject -> string.
Variable BuildKey : nat -> string -> string.

(** A mutation as the query hooks return it. *)
Record UseMutationResult : Type := {
  isLoading : bool;
  mutateAsync : AsyncFn
}.

(** Of the mutations of [useEpisodeSubtitleModification] the page takes
    [download] only. *)
Record EpisodeSubtitleModification : Type := { download : UseMutationResult }.

(** What the hooks return during one render pass. *)
Record Hooks : Type := {
  mantine_theme : MantineTheme;
  useEpisodeSubtitleModification : EpisodeSubtitleModification;
  useSeriesAction : UseMutationResult;
  useEpisodeWantedPagination : Query
}.

(** The calls that the handlers of the page make of their collaborators:
    [task.create(name, group, callable, parameters)], and the invocation of an
    asynchronous function on the argument of a series action. *)
Inductive Call : Type :=
| task_create (name : string) (group : TaskGroup) (callable : AsyncFn)
    (parameters : FormType.EpisodeSubtitle)
| invoke (callable : AsyncFn) (variables : FormType.SeriesAction).

(** An event handler is the sequence of calls in its body. *)
Definition Handler : Type := list Call.

(** Modelled from the spec: the task facade [task] is not among the sources;
    [create(name, group, asyncFn, args)] registers a named, grouped background
    task. The facade keeps the registered tasks in the order of registration. *)
Record Task : Type := {
  task_name : string;
  task_group : TaskGroup;
  task_callable : AsyncFn;
  task_parameters : FormType.EpisodeSubtitle
}.

Definition perform (tasks : list Task) (c : Call) : list Task :=
  match c with
  | task_create n g f a =>
      tasks ++ [ {| task_name := n; task_group := g; task_callable := f;
                    task_parameters := a |} ]
  | invoke _ _ => tasks
  end.

Definition run (h : Handler) (tasks : list Task) : list Task :=
  foldl perform tasks h.

(** ** Rendered elements *)

Inductive ComponentRef : Type := Link.

Inductive IconDefinition : Type := faFileLines | faSearch.

(** The elements the cells render, one constructor per component with the
    props the page sets; an absent prop is [None]. *)
Inductive Element : Type :=
| TextNode (s : string)
| Anchor (className : option string) (component : ComponentRef) (to : string)
    (children : list Element)
| Text (className : option string) (children : list Element)
| TextPopover (text : option string) (children : list Element)
| FontAwesomeIcon (size : option string) (icon : IconDefinition)
| Group (spacing : string) (children : list Element)
| Badge (color : option string) (leftSection : Element) (key : string)
    (style : gmap string string) (onClick : Handler) (children : list Element)
| LanguageText (value : Language).

(** Modelled from the spec: the component [Language.Text] is not among the
    sources; it shows the language label, the display name of the entry. *)
Definition Language_Text (value : Language) : string := name value.

(** The children of a container, the click handler of an element and the
    label a badge shows. *)
Definition children_of (e : Element) : list Element :=
  match e with
  | Anchor _ _ _ cs | Text _ cs | TextPopover _ cs | Group _ cs
  | Badge _ _ _ _ _ cs => cs
  | TextNode _ | FontAwesomeIcon _ _ | LanguageText _ => []
  end.

Definition onClick_of (e : Element) : option Handler :=
  match e with
  | Badge _ _ _ _ h _ => Some h
  | _ => None
  end.

Definition color_of (e : Element) : option string :=
  match e with
  | Badge c _ _ _ _ _ => c
  | _ => None
  end.

Definition label_of (e : Element) : option string :=
  match e with
  | Badge _ _ _ _ _ [LanguageText item] => Some (Language_Text item)
  | _ => None
  end.

(** A click on an element runs its handler, when it has one. *)
Definition click (e : Element) (tasks : list Task) : list Task :=
  match onClick_of e with
  | Some h => run h tasks
  | None => tasks
  end.

(** ** The table and its columns *)

(** What the host table gives to a cell renderer of a column with accessor
    [k]: the row with the original record, and the value of field [k]. *)
Record Row : Type := { original : Episode }.

Record CellProps (k : EpisodeKey) : Type := {
  row : Row;
  value : FieldType k
}.
Arguments row {k} _.
Arguments value {k} _.

(** A column descriptor. A column without [Cell] is rendered by the host
    table, which shows the plain value. *)
Record Column : Type := {
  Header : option string;
  accessor : EpisodeKey;
  className : option string;
  Cell : option (Hooks -> CellProps accessor -> Element)
}.

(** The host table renders the cell of a column for a record with the value
    of the accessed field. *)
Definition cellProps (k : EpisodeKey) (r : Episode) : CellProps k :=
  {| row := {| original := r |}; value := field k r |}.

Definition renderCell (c : Column) (h : Hooks) (r : Episode) : option Element :=
  match Cell c with
  | Some render => Some (render h (cellProps (accessor c) r))
  | None => None
  end.

(** The cell renderers, in the order of the columns. *)
Definition Cell_Name (h : Hooks) (props : CellProps key_seriesTitle) : Element :=
  let target := "/series/" +:+ Number_toString (sonarrSeriesId (original (row props))) in
  let classes := classes (useTableStyles css (mantine_theme h)) in
  Anchor (classes !! "primary") Link target [TextNode (value props)].

Definition Cell_episodeTitle (h : Hooks) (props : CellProps key_episodeTitle) : Element :=
  let classes := classes (useTableStyles css (mantine_theme h)) in
  Text (classes !! "noWrap") [TextNode (value props)].

Definition Cell_Path (h : Hooks) (props : CellProps key_path) : Element :=
  let classes := classes (useTableStyles css (mantine_theme h)) in
  Text (classes !! "width7em") [TextNode (value props)].

Definition Cell_Release (h : Hooks) (props : CellProps key_sceneName) : Element :=
  TextPopover (sceneName (original (row props)))
    [FontAwesomeIcon (Some "2x") faFileLines].

Definition Cell_Missing (h : Hooks) (props : CellProps key_missing_subtitles) : Element :=
  let wanted := original (row props) in
  let seriesId := sonarrSeriesId wanted in
  let episodeId := sonarrEpisodeId wanted in
  let download := download (useEpisodeSubtitleModification h) in
  Group "sm"
    (imap
       (fun idx item =>
          Badge
            (if isLoading download then Some "gray" else None)
            (FontAwesomeIcon None faSearch)
            (BuildKey idx (code2 item))
            {[ "cursor" := "pointer" ]}
            [ task_create (name item) SearchSubtitle (mutateAsync download)
                {| FormType.seriesId := seriesId;
                   FormType.episodeId := episodeId;
                   FormType.form :=
                     {| FormType.language := code2 item;
                        FormType.hi := hi item;
                        FormType.forced := forced item |} |} ]
            [LanguageText item])
       (value props)).

(** The factory given to [useMemo]: the column schema. *)
Definition columns (_ : unit) : list Column :=
  [ {| Header := Some "Name"; accessor := key_seriesTitle; className := None;
       Cell := Some Cell_Name |};
    {| Header := Some "Episode"; accessor := key_episode_number; className := None;
       Cell := None |};
    {| Header := None; accessor := key_episodeTitle; className := None;
       Cell := Some Cell_episodeTitle |};
    {| Header := Some "Path"; accessor := key_path; className := None;
       Cell := Some Cell_Path |};
    {| Header := Some "Release"; accessor := key_sceneName;
       className := Some "width6em text-center";
       Cell := Some Cell_Release |};
    {| Header := Some "Missing"; accessor := key_missing_subtitles; className := None;
       Cell := Some Cell_Missing |} ].

(** ** The page component *)

(** React's [useMemo]: the component instance keeps, for the call, the last
    value with the dependencies it was computed for; the factory runs on the
    first render and whenever the dependencies differ from the kept ones.
    [memo_runs] counts the runs of the factory. *)
Record MemoCell (A D : Type) : Type := {
  memo_value : A;
  memo_deps : list D;
  memo_runs : nat
}.
Arguments memo_value {A D} _.
Arguments memo_deps {A D} _.
Arguments memo_runs {A D} _.

Definition useMemo {A D : Type} `{EqDecision D} (factory : unit -> A)
    (deps : list D) (cell : option (MemoCell A D)) : A * MemoCell A D :=
  match cell with
  | None =>
      let v := factory () in
      (v, {| memo_value := v; memo_deps := deps; memo_runs := 1 |})
  | Some c =>
      if decide (memo_deps c = deps) then (memo_value c, c)
      else
        let v := factory () in
        (v, {| memo_value := v; memo_deps := deps; memo_runs := S (memo_runs c) |})
  end.

(** The props the page gives to the generic [WantedView]. *)
Record WantedViewProps : Type := {
  view_name : string;
  view_columns : list Column;
  view_query : Query;
  searchAll : Handler
}.

(** One render pass of the page component, from the hook results and the memo
    cell of the instance ([None] before the first render). *)
Definition WantedSeriesView (h : Hooks) (cell : option (MemoCell (list Column) Z))
    : WantedViewProps * MemoCell (list Column) Z :=
  let '(columns, cell') := useMemo columns [] cell in
  let mutateAsync := mutateAsync (useSeriesAction h) in
  let query := useEpisodeWantedPagination h in
  ({| view_name := "Series";
      view_columns := columns;
      view_query := query;
      searchAll := [ invoke mutateAsync {| FormType.action := "search-wanted" |} ] |},
   cell').

(** The successive render passes of a mounted instance, one per hook result:
    the props of each pass, and the memo cell after the last. *)
Fixpoint renders (hs : list Hooks) (cell : option (MemoCell (list Column) Z))
    : list WantedViewProps * option (MemoCell (list Column) Z) :=
  match hs with
  | [] => ([], cell)
  | h :: hs' =>
      let '(props, cell') := WantedSeriesView h cell in
      let '(rest, final) := renders hs' (Some cell') in
      (props :: rest, final)
  end.

(** The Missing cell of a record, and its badges. *)
Definition missing_cell (h : Hooks) (r : Episode) : Element :=
  Cell_Missing h (cellProps key_missing_subtitles r).

Definition badges (h : Hooks) (r : Episode) : list Element :=
  children_of (missing_cell h r).

(** The Name cell of a record, and the cells that the page itself renders
    for a record, in the order of the columns (the Episode column, left to
    the host table, has none). *)
Definition name_cell (h : Hooks) (r : Episode) : Element :=
  Cell_Name h (cellProps key_seriesTitle r).

Definition rendered_cells (h : Hooks) (r : Episode) : list Element :=
  omap (fun c => renderCell c h r) (columns ()).

(** The click handlers and the class props anywhere in an element, in
    document order; the key of a badge and the target of a link. *)
Fixpoint handlers (e : Element) : list Handler :=
  match e with
  | TextNode _ | FontAwesomeIcon _ _ | LanguageText _ => []
  | Anchor _ _ _ cs | Text _ cs | TextPopover _ cs | Group _ cs =>
      flat_map handlers cs
  | Badge _ icon _ _ h cs => h :: handlers icon ++ flat_map handlers cs
  end.

Fixpoint classNames (e : Element) : list (option string) :=
  match e with
  | TextNode _ | FontAwesomeIcon _ _ | LanguageText _ => []
  | Anchor c _ _ cs | Text c cs => c :: flat_map classNames cs
  | TextPopover _ cs | Group _ cs => flat_map classNames cs
  | Badge _ icon _ _ _ cs => classNames icon ++ flat_map classNames cs
  end.

Definition key_of (e : Element) : option string :=
  match e with
  | Badge _ _ k _ _ _ => Some k
  | _ => None
  end.

Definition to_of (e : Element) : option string :=
  match e with
  | Anchor _ _ target _ => Some target
  | _ => None
  end.

End Page.

Arguments row {k} _.
Arguments value {k} _.
Arguments memo_value {A D} _.
Arguments memo_deps {A D} _.
Arguments memo_runs {A D} _.

(** ** A concrete page *)

(** A theme, a serialiser and a key builder to run the page with, and the
    hook results of a page at rest and of a page with a download in flight.
    Functions are referred to by their names. *)
Definition example_theme : MantineTheme :=
  {| fn := {| smallerThan := fun b => "@media (max-width: " +:+ b +:+ ")" |} |}.

(** A second theme, which agrees with the first on the breakpoint "sm" and on
    no other. *)
Definition example_theme_sm : MantineTheme :=
  {| fn := {| smallerThan := fun b =>
                if String.eqb b "sm" then "@media (max-width: sm)" else "@media print" |} |}.

Definition example_css (o : CSSObject) : string :=
  "mantine-" +:+ pretty (size o).

Definition example_BuildKey (idx : nat) (code : string) : string :=
  pretty idx +:+ "-" +:+ code.

Definition example_hooks (loading : bool) : @Hooks string (list Episode) :=
  {| mantine_theme := example_theme;
     useEpisodeSubtitleModification :=
       {| download := {| isLoading := loading; mutateAsync := "download.mutateAsync" |} |};
     useSeriesAction := {| isLoading := false; mutateAsync := "action.mutateAsync" |};
     useEpisodeWantedPagination := [] |}.

Definition example_english : Language :=
  {| code2 := "en"; name := "English"; hi := false; forced := false |}.

Definition example_episode : Episode :=
  {| sonarrSeriesId := 1;
     sonarrEpisodeId := 42;
     seriesTitle := "Some Series";
     episode_number := "1x02";
     episodeTitle := "Some Episode";
     path := "/tv/some/episode.mkv";
     sceneName := None;
     missing_subtitles := [example_english] |}.

(** A second language entry, a record that lists the first entry twice, and
    hook results that differ from the first in the theme, the series action
    and the pagination result. *)
Definition example_french_forced : Language :=
  {| code2 := "fr"; name := "French"; hi := false; forced := true |}.

Definition example_episode_repeated : Episode :=
  {| sonarrSeriesId := 5;
     sonarrEpisodeId := 77;
     seriesTitle := "Other Series";
     episode_number := "2x10";
     episodeTitle := "Other Episode";
     path := "/tv/other/episode.mkv";
     sceneName := Some "Other.Series.S02E10.WEB";
     missing_subtitles := [example_english; example_french_forced; example_english] |}.

Definition example_hooks_other : @Hooks string (list Episode) :=
  {| mantine_theme := example_theme_sm;
     useEpisodeSubtitleModification :=
       {| download := {| isLoading := false; mutateAsync := "download.mutateAsync" |} |};
     useSeriesAction := {| isLoading := true; mutateAsync := "action.mutateAsync" |};
     useEpisodeWantedPagination := [] |}.

(** A theme whose selector is the same for every breakpoint, and differs from
    that of the first theme for "sm". *)
Definition example_theme_print : MantineTheme :=
  {| fn := {| smallerThan := fun _ => "@media print" |} |}.

(** A string without the separator of the example key builder. *)
Fixpoint dash_free (s : string) : Prop :=
  match s with
  | EmptyString => True
  | String c s' => c <> "-"%char /\ dash_free s'
  end.

(** ** Properties *)

Section Properties.

Context {AsyncFn Query : Type}.
Variable css : CSSObject -> string.
Variable BuildKey : nat -> string -> string.

Implicit Types (h : @Hooks AsyncFn Query) (r : Episode) (item : Language).
Implicit Types (tasks : list (@Task AsyncFn)).

(** The search task that a badge of entry [item] on record [r] registers. *)
Definition search_parameters r item : FormType.EpisodeSubtitle :=
  {| FormType.seriesId := sonarrSeriesId r;
     FormType.episodeId := sonarrEpisodeId r;
     FormType.form :=
       {| FormType.language := code2 item;
          FormType.hi := hi item;
          FormType.forced := forced item |} |}.

Definition search_task h r item : @Task AsyncFn :=
  {| task_name := name item;
     task_group := SearchSubtitle;
     task_callable := mutateAsync (download (useEpisodeSubtitleModification h));
     task_parameters := search_parameters r item |}.

(** The badge that the Missing cell renders for entry [item] at index [idx]. *)
Definition badge_of h r (idx : nat) item : @Element AsyncFn :=
  Badge
    (if isLoading (download (useEpisodeSubtitleModification h)) then Some "gray" else None)
    (FontAwesomeIcon None faSearch)
    (BuildKey idx (code2 item))
    {[ "cursor" := "pointer" ]}
    [ task_create (name item) SearchSubtitle
        (mutateAsync (download (useEpisodeSubtitleModification h)))
        (search_parameters r item) ]
    [LanguageText item].

Lemma badges_imap h r :
  badges BuildKey h r = imap (badge_of h r) (missing_subtitles r).
Proof. reflexivity. Qed.

Lemma badges_lookup h r (i : nat) :
  badges BuildKey h r !! i = badge_of h r i <$> missing_subtitles r !! i.
Proof. rewrite badges_imap. apply list_lookup_imap. Qed.

Lemma click_badge_of h r (i : nat) item tasks :
  click (badge_of h r i item) tasks = (tasks ++ [search_task h r item])%list.
Proof. reflexivity. Qed.

(** A projection of the rendered items that does not look at the index is a
    map over the rendered list. *)
Lemma fmap_imap_index_free {A B C : Type} (f : nat -> A -> B) (g : B -> C)
    (k : A -> C) (l : list A) :
  (forall i x, g (f i x) = k x) -> g <$> imap f l = k <$> l.
Proof.
  intros Hg. apply list_eq. intros i.
  rewrite !list_lookup_fmap, list_lookup_imap.
  destruct (l !! i); simpl; [by rewrite Hg | done].
Qed.

(** A lookup of a preset by its name goes past the later keys of the literal
    to the key itself. *)
Ltac lookup_preset :=
  unfold tableStyles, object_literal at 1; simpl foldl;
  rewrite !lookup_insert_ne by done; by rewrite lookup_insert_eq.

(** The rule sets of the presets that the cells use. *)
Lemma tableStyles_primary (th : MantineTheme) :
  tableStyles th !! "primary" =
    Some (<[smallerThan (fn th) "sm" := CSSObj {[ "minWidth" := CSSStr "12rem" ]}]>
            {[ "display" := CSSStr "inline-block" ]}).
Proof.
  lookup_preset.
Qed.

Lemma tableStyles_noWrap (th : MantineTheme) :
  tableStyles th !! "noWrap" = Some {[ "whiteSpace" := CSSStr "nowrap" ]}.
Proof.
  lookup_preset.
Qed.

Lemma tableStyles_width7em (th : MantineTheme) :
  tableStyles th !! "width7em" = Some {[ "width" := CSSStr "7em" ]}.
Proof.
  lookup_preset.
Qed.

Lemma classes_lookup (th : MantineTheme) (k : string) :
  classes (useTableStyles css th) !! k = css <$> tableStyles th !! k.
Proof. apply lookup_fmap. Qed.

(** The memo cell of the page once the columns are computed: every later
    render pass returns the kept columns and leaves the cell as it is. *)
Lemma renders_memoised (hs : list (@Hooks AsyncFn Query))
    (c : MemoCell (list (@Column AsyncFn Query)) Z) :
  memo_deps c = [] ->
  Forall (fun p => view_columns p = memo_value c)
    (renders css BuildKey hs (Some c)).1 /\
  (renders css BuildKey hs (Some c)).2 = Some c.
Proof.
  intros Hdeps. induction hs as [|h hs [IH1 IH2]]; simpl.
  - split; [constructor | reflexivity].
  - unfold WantedSeriesView, useMemo. rewrite Hdeps.
    destruct (decide (@nil Z = [])) as [_|Hne]; [|done].
    destruct (renders css BuildKey hs (Some c)) as [rest final]; simpl in *.
    split; [by constructor | done].
Qed.

(** C1. Clicking the badge of the [i]-th missing-subtitle entry of a record
    makes exactly one call, [task.create], with the search-subtitle group and
    the argument [{seriesId, episodeId, form: {language, hi, forced}}] taken
    from the record and the entry; the task facade registers exactly that one
    task after those it already holds. *)
Theorem C1_badge_click_enqueues_search_task h r (i : nat) item tasks :
  missing_subtitles r !! i = Some item ->
  exists badge,
    badges BuildKey h r !! i = Some badge /\
    onClick_of badge =
      Some [ task_create (name item) SearchSubtitle
               (mutateAsync (download (useEpisodeSubtitleModification h)))
               {| FormType.seriesId := sonarrSeriesId r;
                  FormType.episodeId := sonarrEpisodeId r;
                  FormType.form :=
                    {| FormType.language := code2 item;
                       FormType.hi := hi item;
                       FormType.forced := forced item |} |} ] /\
    click badge tasks =
      (tasks ++
       [ {| task_name := name item;
            task_group := SearchSubtitle;
            task_callable := mutateAsync (download (useEpisodeSubtitleModification h));
            task_parameters :=
              {| FormType.seriesId := sonarrSeriesId r;
                 FormType.episodeId := sonarrEpisodeId r;
                 FormType.form :=
                   {| FormType.language := code2 item;
                      FormType.hi := hi item;
                      FormType.forced := forced item |} |} |} ])%list /\
    length (click badge tasks) = S (length tasks).
Proof.
  intros Hitem. exists (badge_of h r i item).
  rewrite badges_lookup, Hitem. repeat split.
  rewrite click_badge_of, length_app. simpl. lia.
Qed.

(** C2. The Missing cell of a record is a group whose children are exactly
    one badge per entry of the missing-subtitle list, in the order of the
    list: as many badges as entries, the [i]-th badge holding the language
    text of the [i]-th entry and labelled with that entry's display name, and
    no badge at an index where the list has no entry. *)
Theorem C2_one_badge_per_missing_entry h r :
  missing_cell BuildKey h r = Group "sm" (badges BuildKey h r) /\
  length (badges BuildKey h r) = length (missing_subtitles r) /\
  children_of <$> badges BuildKey h r =
    (fun item => [LanguageText item]) <$> missing_subtitles r /\
  label_of <$> badges BuildKey h r =
    (fun item => Some (name item)) <$> missing_subtitles r /\
  (forall i : nat,
     badges BuildKey h r !! i ≫= label_of = name <$> missing_subtitles r !! i).
Proof.
  split; [reflexivity |]. rewrite badges_imap.
  split; [apply length_imap |].
  split; [by apply fmap_imap_index_free |].
  split; [by apply fmap_imap_index_free |].
  intros i. rewrite list_lookup_imap. by destruct (missing_subtitles r !! i).
Qed.

(** C3. While the download mutation reports [isLoading = true], the badge of
    every missing-subtitle entry is rendered grey and still carries its click
    handler: a click registers the search task, and a second click registers
    the same task once more. *)
Theorem C3_loading_badge_grey_and_clickable h r (i : nat) item tasks :
  isLoading (download (useEpisodeSubtitleModification h)) = true ->
  missing_subtitles r !! i = Some item ->
  exists badge,
    badges BuildKey h r !! i = Some badge /\
    color_of badge = Some "gray" /\
    onClick_of badge =
      Some [ task_create (name item) SearchSubtitle
               (mutateAsync (download (useEpisodeSubtitleModification h)))
               (search_parameters r item) ] /\
    click badge tasks = (tasks ++ [search_task h r item])%list /\
    click badge (click badge tasks) =
      (tasks ++ [search_task h r item; search_task h r item])%list.
Proof.
  intros Hloading Hitem. exists (badge_of h r i item).
  rewrite badges_lookup, Hitem. split; [reflexivity |].
  split; [simpl; by rewrite Hloading |].
  split; [reflexivity |].
  rewrite !click_badge_of. split; [reflexivity |].
  by rewrite <- app_assoc.
Qed.

(** C4, as amended. A Missing badge is click-enabled whether or not a
    download is in flight: its colour is grey while the download mutation is
    loading and absent otherwise, and in both states a click registers the
    search task of its entry. *)
Theorem C4_badge_click_enabled_in_every_state h r (i : nat) item tasks :
  missing_subtitles r !! i = Some item ->
  exists badge,
    badges BuildKey h r !! i = Some badge /\
    color_of badge =
      (if isLoading (download (useEpisodeSubtitleModification h))
       then Some "gray" else None) /\
    click badge tasks = (tasks ++ [search_task h r item])%list.
Proof.
  intros Hitem. exists (badge_of h r i item).
  by rewrite badges_lookup, Hitem.
Qed.

(** C9. For every badge of every record, the task that a click registers is
    named with the display name of the badge's language entry and belongs to
    the [SearchSubtitle] group; the series and episode titles do not enter
    the name. *)
Theorem C9_task_named_after_language h r tasks :
  (fun badge => onClick_of badge ≫= head) <$> badges BuildKey h r =
    (fun item =>
       Some (task_create (name item) SearchSubtitle
               (mutateAsync (download (useEpisodeSubtitleModification h)))
               (search_parameters r item))) <$> missing_subtitles r /\
  (fun badge => task_name <$> click badge []) <$> badges BuildKey h r =
    (fun item => [name item]) <$> missing_subtitles r /\
  (fun badge => task_group <$> click badge []) <$> badges BuildKey h r =
    (fun item => [SearchSubtitle]) <$> missing_subtitles r /\
  (fun badge => last (click badge tasks)) <$> badges BuildKey h r =
    (fun item => Some (search_task h r item)) <$> missing_subtitles r.
Proof.
  rewrite badges_imap.
  split; [by apply fmap_imap_index_free |].
  split; [by apply fmap_imap_index_free |].
  split; [by apply fmap_imap_index_free |].
  apply fmap_imap_index_free. intros i item.
  rewrite click_badge_of. apply last_snoc.
Qed.

(** C5. In every render pass the "search all" action given to the view is a
    handler that makes exactly one call: the invocation of the series-action
    mutation on [{action: "search-wanted"}]. It registers no task. *)
Theorem C5_searchAll_invokes_search_wanted h
    (cell : option (MemoCell (list (@Column AsyncFn Query)) Z)) tasks :
  searchAll (WantedSeriesView css BuildKey h cell).1 =
    [ invoke (mutateAsync (useSeriesAction h))
        {| FormType.action := "search-wanted" |} ] /\
  length (searchAll (WantedSeriesView css BuildKey h cell).1) = 1 /\
  run (searchAll (WantedSeriesView css BuildKey h cell).1) tasks = tasks.
Proof.
  unfold WantedSeriesView.
  destruct (useMemo (columns css BuildKey) [] cell) as [cols cell'].
  by simpl.
Qed.

(** C6. For a record whose series identifier is a safe integer, the first
    column, "Name" with accessor [seriesTitle], renders a link element (an
    anchor with the router's [Link] as its component) whose target is
    "/series/" followed by the decimal numeral of the identifier, whose text
    is the series title, and whose class is the one generated for the rule
    set of the "primary" preset. *)
Theorem C6_name_cell_links_to_series h r :
  Number_isSafeInteger (sonarrSeriesId r) ->
  (fun c => (Header c, key_name (accessor c), renderCell c h r))
    <$> columns css BuildKey () !! 0 =
    Some (Some "Name", "seriesTitle",
          Some (Anchor
                  (Some (css (<[smallerThan (fn (mantine_theme h)) "sm" :=
                                  CSSObj {[ "minWidth" := CSSStr "12rem" ]}]>
                                {[ "display" := CSSStr "inline-block" ]})))
                  Link
                  ("/series/" +:+ pretty (sonarrSeriesId r))
                  [TextNode (seriesTitle r)])) /\
  classes (useTableStyles css (mantine_theme h)) !! "primary" =
    css <$> tableStyles (mantine_theme h) !! "primary".
Proof.
  intros _. split; [| apply classes_lookup].
  simpl. unfold renderCell, Cell_Name. simpl.
  by rewrite lookup_fmap, tableStyles_primary.
Qed.

(** C7. The column schema is the fixed list Name, Episode, an episode-title
    column without header, Path, Release, Missing, with the accessors
    [seriesTitle], [episode_number], [episodeTitle], [path], [sceneName],
    [missing_subtitles]; for a record whose series identifier is a safe
    integer the cells are the link of the Name column, a text with the class
    of the "noWrap" preset, a text with the class of the "width7em" preset,
    whose width is 7em, and the file-lines icon in a text popover, the
    Episode column being left to the host table. The page takes the schema
    from [useMemo] with the empty dependency list: the first render pass runs
    the factory once; a pass that finds a kept value with the empty
    dependency list hands that very value to the view, whatever it is, and
    leaves the memo cell and its count of runs as they are (only a kept cell
    with other dependencies would make the factory run again); so over the
    render passes of a mounted page the schema is computed once and every
    pass hands the same list to the view. *)
Theorem C7_column_schema_fixed_and_memoised h r h0
    (hs : list (@Hooks AsyncFn Query))
    (cell : option (MemoCell (list (@Column AsyncFn Query)) Z))
    (kept : list (@Column AsyncFn Query)) (n : nat) (d : Z) (ds : list Z) :
  Number_isSafeInteger (sonarrSeriesId r) ->
  (fun c : @Column AsyncFn Query => (Header c, key_name (accessor c), className c))
    <$> columns css BuildKey () =
    [ (Some "Name", "seriesTitle", None);
      (Some "Episode", "episode_number", None);
      (None, "episodeTitle", None);
      (Some "Path", "path", None);
      (Some "Release", "sceneName", Some "width6em text-center");
      (Some "Missing", "missing_subtitles", None) ] /\
  (fun c => renderCell c h r) <$> columns css BuildKey () =
    [ Some (Anchor (css <$> tableStyles (mantine_theme h) !! "primary") Link
              ("/series/" +:+ Number_toString (sonarrSeriesId r))
              [TextNode (seriesTitle r)]);
      None;
      Some (Text (Some (css {[ "whiteSpace" := CSSStr "nowrap" ]}))
              [TextNode (episodeTitle r)]);
      Some (Text (Some (css {[ "width" := CSSStr "7em" ]})) [TextNode (path r)]);
      Some (TextPopover (sceneName r) [FontAwesomeIcon (Some "2x") faFileLines]);
      Some (Group "sm" (badges BuildKey h r)) ] /\
  tableStyles (mantine_theme h) !! "width7em" = Some {[ "width" := CSSStr "7em" ]} /\
  (* the schema of a pass is what [useMemo] gives for the factory and [] *)
  view_columns (WantedSeriesView css BuildKey h cell).1 =
    (useMemo (columns css BuildKey) (@nil Z) cell).1 /\
  (WantedSeriesView css BuildKey h cell).2 =
    (useMemo (columns css BuildKey) (@nil Z) cell).2 /\
  (* first pass: the factory runs *)
  view_columns (WantedSeriesView css BuildKey h None).1 = columns css BuildKey () /\
  (WantedSeriesView css BuildKey h None).2 =
    {| memo_value := columns css BuildKey (); memo_deps := []; memo_runs := 1 |} /\
  (* a later pass: the kept value is handed on, the factory does not run *)
  view_columns
    (WantedSeriesView css BuildKey h
       (Some {| memo_value := kept; memo_deps := []; memo_runs := n |})).1 = kept /\
  (WantedSeriesView css BuildKey h
     (Some {| memo_value := kept; memo_deps := []; memo_runs := n |})).2 =
    {| memo_value := kept; memo_deps := []; memo_runs := n |} /\
  (* kept dependencies other than [] would make the factory run again *)
  (WantedSeriesView css BuildKey h
     (Some {| memo_value := kept; memo_deps := d :: ds; memo_runs := n |})).2 =
    {| memo_value := columns css BuildKey (); memo_deps := []; memo_runs := S n |} /\
  (* the passes of a mounted page *)
  Forall (fun p => view_columns p = columns css BuildKey ())
    (renders css BuildKey (h0 :: hs) None).1 /\
  length (renders css BuildKey (h0 :: hs) None).1 = S (length hs) /\
  memo_runs <$> (renders css BuildKey (h0 :: hs) None).2 = Some 1 /\
  memo_deps <$> (renders css BuildKey (h0 :: hs) None).2 = Some [] /\
  Forall (fun p => view_columns p = kept)
    (renders css BuildKey hs
       (Some {| memo_value := kept; memo_deps := []; memo_runs := n |})).1 /\
  (renders css BuildKey hs
     (Some {| memo_value := kept; memo_deps := []; memo_runs := n |})).2 =
    Some {| memo_value := kept; memo_deps := []; memo_runs := n |}.
Proof.
  intros _.
  split; [reflexivity |].
  split.
  { simpl. unfold renderCell, Cell_Name, Cell_episodeTitle, Cell_Path. simpl.
    by rewrite !lookup_fmap, tableStyles_noWrap, tableStyles_width7em. }
  split; [apply tableStyles_width7em |].
  split.
  { unfold WantedSeriesView.
    by destruct (useMemo (columns css BuildKey) [] cell). }
  split.
  { unfold WantedSeriesView.
    by destruct (useMemo (columns css BuildKey) [] cell). }
  split; [reflexivity |]. split; [reflexivity |].
  split.
  { unfold WantedSeriesView, useMemo. simpl.
    by destruct (decide (@nil Z = [])). }
  split.
  { unfold WantedSeriesView, useMemo. simpl.
    by destruct (decide (@nil Z = [])). }
  split.
  { unfold WantedSeriesView, useMemo. simpl.
    by destruct (decide (d :: ds = [])). }
  destruct (renders_memoised hs
              {| memo_value := kept; memo_deps := @nil Z; memo_runs := n |} eq_refl)
    as [Hkept Hkept_final].
  simpl.
  set (c := {| memo_value := columns css BuildKey ();
               memo_deps := @nil Z; memo_runs := 1 |}).
  destruct (renders_memoised hs c eq_refl) as [Hall Hfinal].
  assert (Hlen : forall (l : list (@Hooks AsyncFn Query)) cell0,
             length (renders css BuildKey l cell0).1 = length l).
  { induction l as [|x l IHl]; intros cell0; simpl; [done |].
    destruct (WantedSeriesView css BuildKey x cell0) as [p cell'].
    specialize (IHl (Some cell')).
    destruct (renders css BuildKey l (Some cell')) as [rest final].
    simpl in *. by rewrite IHl. }
  specialize (Hlen hs (Some c)).
  destruct (renders css BuildKey hs (Some c)) as [rest final]; simpl in *.
  subst final. repeat split; try done.
  - by constructor.
  - by rewrite Hlen.
Qed.

(** C10. For every record, with or without a scene name, the Release cell
    renders: it is the text popover whose text prop is the record's
    [sceneName] as it stands and whose only child is the file-lines icon of
    size 2x; the renderer has no other outcome. *)
Theorem C10_release_cell_total h r :
  (fun c => (Header c, key_name (accessor c), renderCell c h r))
    <$> columns css BuildKey () !! 4 =
    Some (Some "Release", "sceneName",
          Some (TextPopover (sceneName r)
                  [FontAwesomeIcon (Some "2x") faFileLines])) /\
  (forall props : CellProps key_sceneName,
     Cell_Release h props =
       TextPopover (sceneName (original (row props)))
         [FontAwesomeIcon (Some "2x") faFileLines]).
Proof. split; reflexivity. Qed.

(** C8. The style-preset table is a function of the theme alone, and of the
    theme it reads nothing but the selector that the breakpoint predicate
    gives for "sm": two themes that agree there (the same theme above all)
    give, for every style name, the same rule set. For every theme the keys
    of the table are [primary], [noWrap], [select] and [width1em] to
    [width10em]; the preset [widthNem] is the rule set with the single
    property [width] set to [Nem], for N from 1 to 10; and the hook gives one
    class name per key. *)
Theorem C8_style_table_deterministic (th th' : MantineTheme) (k : string) :
  smallerThan (fn th) "sm" = smallerThan (fn th') "sm" ->
  tableStyles th !! k = tableStyles th' !! k /\
  dom (tableStyles th) =
    ({[ "primary"; "noWrap"; "select";
        "width1em"; "width2em"; "width3em"; "width4em"; "width5em";
        "width6em"; "width7em"; "width8em"; "width9em"; "width10em" ]}
     : gset string) /\
  Forall
    (fun n : nat =>
       tableStyles th !! ("width" +:+ pretty n +:+ "em") =
         Some {[ "width" := CSSStr (pretty n +:+ "em") ]})
    (seq 1 10) /\
  dom (classes (useTableStyles css th)) = dom (tableStyles th).
Proof.
  intros Hsm. split.
  { unfold tableStyles. by rewrite Hsm. }
  split.
  { unfold tableStyles, object_literal at 1. simpl foldl.
    rewrite !dom_insert_L, dom_empty_L. set_solver. }
  split.
  { repeat constructor; lookup_preset. }
  apply dom_fmap_L.
Qed.

End Properties.

(** ** The properties on the concrete page *)

(** C1 on the record (seriesId 1, episodeId 42) with the entry "en", neither
    hearing-impaired nor forced. *)
Lemma C1_badge_click_enqueues_search_task_witness :
  missing_subtitles example_episode !! 0 = Some example_english /\
  exists badge,
    badges example_BuildKey (example_hooks false) example_episode !! 0 = Some badge /\
    onClick_of badge =
      Some [ task_create "English" SearchSubtitle "download.mutateAsync"
               {| FormType.seriesId := 1;
                  FormType.episodeId := 42;
                  FormType.form :=
                    {| FormType.language := "en";
                       FormType.hi := false;
                       FormType.forced := false |} |} ] /\
    click badge [] =
      [ {| task_name := "English";
           task_group := SearchSubtitle;
           task_callable := "download.mutateAsync";
           task_parameters :=
             {| FormType.seriesId := 1;
                FormType.episodeId := 42;
                FormType.form :=
                  {| FormType.language := "en";
                     FormType.hi := false;
                     FormType.forced := false |} |} |} ] /\
    length (click badge []) = 1.
Proof.
  split; [reflexivity |].
  exact (C1_badge_click_enqueues_search_task example_BuildKey
           (example_hooks false) example_episode 0 example_english []
           eq_refl).
Defined.

(** C3 on the same record while a download is in flight. *)
Lemma C3_loading_badge_grey_and_clickable_witness :
  isLoading (download (useEpisodeSubtitleModification (example_hooks true))) = true /\
  missing_subtitles example_episode !! 0 = Some example_english /\
  exists badge,
    badges example_BuildKey (example_hooks true) example_episode !! 0 = Some badge /\
    color_of badge = Some "gray" /\
    onClick_of badge =
      Some [ task_create "English" SearchSubtitle "download.mutateAsync"
               (search_parameters example_episode example_english) ] /\
    click badge [] =
      [ search_task (example_hooks true) example_episode example_english ] /\
    click badge (click badge []) =
      [ search_task (example_hooks true) example_episode example_english;
        search_task (example_hooks true) example_episode example_english ].
Proof.
  split; [reflexivity |]. split; [reflexivity |].
  exact (C3_loading_badge_grey_and_clickable example_BuildKey
           (example_hooks true) example_episode 0 example_english []
           eq_refl eq_refl).
Defined.

(** C4 as the specification states it fails on the same record: with a
    download in flight the badge is grey, and a click on it registers the
    search task all the same. *)
Lemma C4_click_not_suppressed_while_loading :
  isLoading (download (useEpisodeSubtitleModification (example_hooks true))) = true /\
  exists badge,
    badges example_BuildKey (example_hooks true) example_episode !! 0 = Some badge /\
    color_of badge = Some "gray" /\
    click badge [] =
      [ {| task_name := "English";
           task_group := SearchSubtitle;
           task_callable := "download.mutateAsync";
           task_parameters :=
             {| FormType.seriesId := 1;
                FormType.episodeId := 42;
                FormType.form :=
                  {| FormType.language := "en";
                     FormType.hi := false;
                     FormType.forced := false |} |} |} ] /\
    click badge [] <> [].
Proof.
  split; [reflexivity |]. eexists. split; [reflexivity |].
  split; [reflexivity |]. split; [reflexivity | discriminate].
Qed.

(** C4 as amended, on the same record while a download is in flight. *)
Lemma C4_badge_click_enabled_in_every_state_witness :
  missing_subtitles example_episode !! 0 = Some example_english /\
  exists badge,
    badges example_BuildKey (example_hooks true) example_episode !! 0 = Some badge /\
    color_of badge = Some "gray" /\
    click badge [] =
      [ search_task (example_hooks true) example_episode example_english ].
Proof.
  split; [reflexivity |].
  exact (C4_badge_click_enabled_in_every_state example_BuildKey
           (example_hooks true) example_episode 0 example_english []
           eq_refl).
Defined.

(** C6 on the record with series identifier 1. *)
Lemma C6_name_cell_links_to_series_witness :
  Number_isSafeInteger (sonarrSeriesId example_episode) /\
  (fun c => (Header c, key_name (accessor c),
             renderCell c (example_hooks false) example_episode))
    <$> columns example_css example_BuildKey () !! 0 =
    Some (Some "Name", "seriesTitle",
          Some (Anchor (Some "mantine-2") Link "/series/1"
                  [TextNode "Some Series"])).
Proof.
  split; [unfold Number_isSafeInteger; simpl; lia |].
  exact (proj1 (C6_name_cell_links_to_series example_css example_BuildKey
                  (example_hooks false) example_episode
                  ltac:(unfold Number_isSafeInteger; simpl; lia))).
Defined.

(** C7 on the record with series identifier 1: its cells, three render
    passes of a mounted page, and a pass that finds the empty list kept with
    a count of seven runs. *)
Lemma C7_column_schema_fixed_and_memoised_witness :
  Number_isSafeInteger (sonarrSeriesId example_episode) /\
  (fun c => renderCell c (example_hooks false) example_episode)
    <$> columns example_css example_BuildKey () =
    [ Some (Anchor (Some "mantine-2") Link "/series/1" [TextNode "Some Series"]);
      None;
      Some (Text (Some "mantine-1") [TextNode "Some Episode"]);
      Some (Text (Some "mantine-1") [TextNode "/tv/some/episode.mkv"]);
      Some (TextPopover None [FontAwesomeIcon (Some "2x") faFileLines]);
      Some (Group "sm"
              (badges example_BuildKey (example_hooks false) example_episode)) ] /\
  memo_runs <$>
    (renders example_css example_BuildKey
       [example_hooks false; example_hooks true; example_hooks false] None).2 =
    Some 1 /\
  view_columns
    (WantedSeriesView example_css example_BuildKey (example_hooks false)
       (Some {| memo_value := []; memo_deps := []; memo_runs := 7 |})).1 = [] /\
  (WantedSeriesView example_css example_BuildKey (example_hooks false)
     (Some {| memo_value := []; memo_deps := []; memo_runs := 7 |})).2 =
    {| memo_value := []; memo_deps := []; memo_runs := 7 |}.
Proof.
  assert (Hsafe : Number_isSafeInteger (sonarrSeriesId example_episode))
    by (unfold Number_isSafeInteger; simpl; lia).
  split; [exact Hsafe |].
  destruct (C7_column_schema_fixed_and_memoised example_css example_BuildKey
              (example_hooks false) example_episode
              (example_hooks false) [example_hooks true; example_hooks false]
              None [] 7 0%Z [] Hsafe)
    as (_ & Hcells & _ & _ & _ & _ & _ & Hkept & Hcell & _ & _ & _ & Hruns & _).
  split; [exact Hcells |]. split; [exact Hruns |].
  split; [exact Hkept | exact Hcell].
Defined.

(** C8 on two themes that agree on "sm", for the preset "primary". *)
Lemma C8_style_table_deterministic_witness :
  smallerThan (fn example_theme) "sm" = smallerThan (fn example_theme_sm) "sm" /\
  tableStyles example_theme !! "primary" = tableStyles example_theme_sm !! "primary" /\
  tableStyles example_theme !! "width7em" = Some {[ "width" := CSSStr "7em" ]}.
Proof.
  split; [reflexivity |].
  destruct (C8_style_table_deterministic example_css example_theme
              example_theme_sm "primary" eq_refl) as (Hsame & _ & Hwidth & _).
  split; [exact Hsame |].
  exact (Forall_lookup_1 _ _ 6 7 Hwidth eq_refl).
Defined.

(** ** The concrete page, evaluated *)

Example example_missing_cell :
  missing_cell example_BuildKey (example_hooks false) example_episode =
    Group "sm"
      [ Badge None (FontAwesomeIcon None faSearch) "0-en"
          {[ "cursor" := "pointer" ]}
          [ task_create "English" SearchSubtitle "download.mutateAsync"
              {| FormType.seriesId := 1;
                 FormType.episodeId := 42;
                 FormType.form :=
                   {| FormType.language := "en";
                      FormType.hi := false;
                      FormType.forced := false |} |} ]
          [LanguageText example_english] ].
Proof. reflexivity. Qed.

Example example_no_missing_subtitles :
  badges example_BuildKey (example_hooks false)
    {| sonarrSeriesId := 7; sonarrEpisodeId := 8; seriesTitle := "S";
       episode_number := "1x01"; episodeTitle := "E"; path := "/p";
       sceneName := Some "S.1x01.WEB"; missing_subtitles := [] |} = [].
Proof. reflexivity. Qed.

Example example_release_cell_without_scene_name :
  (fun c => renderCell c (example_hooks false) example_episode)
    <$> columns example_css example_BuildKey () !! 4 =
    Some (Some (TextPopover None [FontAwesomeIcon (Some "2x") faFileLines])).
Proof. reflexivity. Qed.

Example example_primary_preset :
  tableStyles example_theme !! "primary" =
    Some {[ "display" := CSSStr "inline-block";
            "@media (max-width: sm)" := CSSObj {[ "minWidth" := CSSStr "12rem" ]} ]}.
Proof. vm_compute. reflexivity. Qed.

Example example_three_renders :
  let '(props, cell) :=
    renders example_css example_BuildKey
      [example_hooks false; example_hooks true; example_hooks false] None in
  (view_name <$> props, searchAll <$> props, memo_runs <$> cell) =
    (["Series"; "Series"; "Series"],
     [ [invoke "action.mutateAsync" {| FormType.action := "search-wanted" |}];
       [invoke "action.mutateAsync" {| FormType.action := "search-wanted" |}];
       [invoke "action.mutateAsync" {| FormType.action := "search-wanted" |}] ],
     Some 1).
Proof. reflexivity. Qed.

(** ** Further properties of the page and of the style presets *)

Section Page_properties.

Context {AsyncFn Query : Type}.
Variable css : CSSObject -> string.
Variable BuildKey : nat -> string -> string.

Implicit Types (h : @Hooks AsyncFn Query) (r : Episode) (item : Language).
Implicit Types (tasks : list (@Task AsyncFn)).

(** Items rendered with one handler each give their handlers in the order of
    the list. *)
Lemma handlers_imap {A : Type} (f : nat -> A -> @Element AsyncFn)
    (k : A -> @Handler AsyncFn) (l : list A) :
  (forall i x, handlers (f i x) = [k x]) ->
  flat_map handlers (imap f l) = k <$> l.
Proof.
  revert f. induction l as [|x l IH]; intros f Hf; [reflexivity |].
  rewrite imap_cons. simpl. rewrite Hf. simpl. f_equal.
  apply IH. intros i y. apply Hf.
Qed.

(** Clicking, one after the other, items that each register one task
    registers the tasks in the order of the list. *)
Lemma click_all_imap {A : Type} (f : nat -> A -> @Element AsyncFn)
    (t : A -> @Task AsyncFn) (l : list A) tasks :
  (forall i x q, click (f i x) q = (q ++ [t x])%list) ->
  foldl (fun q e => click e q) tasks (imap f l) = (tasks ++ (t <$> l))%list.
Proof.
  revert f tasks. induction l as [|x l IH]; intros f tasks Hf.
  - simpl. by rewrite app_nil_r.
  - rewrite imap_cons. simpl. rewrite Hf, IH by (intros; apply Hf).
    by rewrite <- app_assoc.
Qed.

(** The only click handlers in the cells of a record are those of the
    Missing badges: the Name, episode-title, Path and Release cells hold
    none at any depth, and the handlers of all cells together are, in order,
    one [task.create] call per missing-subtitle entry. No cell invokes the
    series action. *)
Theorem only_missing_badges_have_handlers h r :
  flat_map handlers (take 4 (rendered_cells css BuildKey h r)) = [] /\
  flat_map handlers (rendered_cells css BuildKey h r) =
    (fun item =>
       [ task_create (name item) SearchSubtitle
           (mutateAsync (download (useEpisodeSubtitleModification h)))
           (search_parameters r item) ]) <$> missing_subtitles r.
Proof.
  split; [reflexivity |].
  unfold rendered_cells. simpl. rewrite app_nil_r.
  by apply handlers_imap.
Qed.

(** Clicking every badge of a record once, in the order shown, registers
    after the tasks already held exactly the search tasks of the entries, in
    the order of the missing-subtitle list. *)
Theorem click_every_badge_once h r tasks :
  foldl (fun q badge => click badge q) tasks (badges BuildKey h r) =
    (tasks ++ (search_task h r <$> missing_subtitles r))%list.
Proof. by apply click_all_imap. Qed.

(** Clicking one badge [n] times registers [n] copies of its search task:
    the handler keeps no record of earlier clicks and removes no task. *)
Theorem click_badge_repeatedly h r (i n : nat) item tasks :
  missing_subtitles r !! i = Some item ->
  exists badge,
    badges BuildKey h r !! i = Some badge /\
    Nat.iter n (click badge) tasks =
      (tasks ++ replicate n (search_task h r item))%list.
Proof.
  intros Hitem. exists (badge_of BuildKey h r i item). split.
  { by rewrite badges_lookup, Hitem. }
  induction n as [|n IH].
  - simpl. by rewrite app_nil_r.
  - change (Nat.iter (S n) (click (badge_of BuildKey h r i item)) tasks)
      with (click (badge_of BuildKey h r i item)
              (Nat.iter n (click (badge_of BuildKey h r i item)) tasks)).
    by rewrite IH, click_badge_of, replicate_S_end, app_assoc.
Qed.

(** Two badges of one record register the same task exactly when their
    entries are the same: the task carries the display name, the code and
    both flags of its entry. *)
Theorem badges_register_same_task_iff_same_entry h r (i j : nat) item item' :
  missing_subtitles r !! i = Some item ->
  missing_subtitles r !! j = Some item' ->
  exists badge badge',
    badges BuildKey h r !! i = Some badge /\
    badges BuildKey h r !! j = Some badge' /\
    (click badge [] = click badge' [] <-> item = item').
Proof.
  intros Hi Hj.
  exists (badge_of BuildKey h r i item), (badge_of BuildKey h r j item').
  rewrite !badges_lookup, Hi, Hj, !click_badge_of.
  split; [done |]. split; [done |]. split; [| by intros ->].
  destruct item, item'. unfold search_task, search_parameters. simpl.
  intros [=]. by subst.
Qed.

(** When the key builder never gives one key to two different indices,
    whatever the codes beside them ([BuildKey i c = BuildKey j d] only if
    [i = j]), the keys of the badges of one cell are pairwise distinct, also
    when the list names a language more than once. *)
Theorem badge_keys_distinct h r :
  (forall (i j : nat) (c d : string), BuildKey i c = BuildKey j d -> i = j) ->
  NoDup (key_of <$> badges BuildKey h r).
Proof.
  intros Hinj. apply NoDup_alt. intros i j k.
  rewrite !list_lookup_fmap, !badges_lookup.
  destruct (missing_subtitles r !! i) as [x|]; [| done].
  destruct (missing_subtitles r !! j) as [y|]; [| done].
  simpl. intros [= <-] [= Hk]. symmetry. by eapply Hinj.
Qed.

(** The page renders the Missing cell of every record, and the cell is a
    group in every case: a group of as many children as the record has
    missing subtitles, and the empty group exactly when it has none. *)
Theorem missing_cell_empty_iff h r :
  (fun c => renderCell c h r) <$> columns css BuildKey () !! 5 =
    Some (Some (missing_cell BuildKey h r)) /\
  (exists cs : list (@Element AsyncFn),
     missing_cell BuildKey h r = Group "sm" cs /\
     length cs = length (missing_subtitles r)) /\
  (missing_cell BuildKey h r = Group "sm" [] <-> missing_subtitles r = []).
Proof.
  split; [reflexivity |].
  split.
  { exists (badges BuildKey h r). split; [reflexivity |].
    rewrite badges_imap. apply length_imap. }
  change (missing_cell BuildKey h r) with (Group "sm" (badges BuildKey h r)).
  rewrite badges_imap. destruct (missing_subtitles r) as [|x l]; [done |].
  rewrite imap_cons. split; intros [=].
Qed.

(** The links of two records, whose series identifiers are safe integers,
    have the same target exactly when the identifiers are equal; the titles
    and the hook results play no part. *)
Theorem name_link_target_inj h h' r r' :
  Number_isSafeInteger (sonarrSeriesId r) ->
  Number_isSafeInteger (sonarrSeriesId r') ->
  to_of (name_cell css h r) = to_of (name_cell css h' r') <->
  sonarrSeriesId r = sonarrSeriesId r'.
Proof.
  intros _ _. simpl. split; [| by intros ->].
  intros [= Heq]. by apply (inj pretty).
Qed.

(** Every class that the cells of a record carry is the class generated for
    a preset of the style table: the cells ask for [primary], [noWrap] and
    [width7em], in that order, each of which the table defines; no cell is
    given an absent class, and the badges carry none. *)
Theorem cell_classes_defined h r :
  flat_map classNames (rendered_cells css BuildKey h r) =
    [ css <$> tableStyles (mantine_theme h) !! "primary";
      css <$> tableStyles (mantine_theme h) !! "noWrap";
      css <$> tableStyles (mantine_theme h) !! "width7em" ] /\
  Forall is_Some (flat_map classNames (rendered_cells css BuildKey h r)).
Proof.
  assert (Hbadges : forall (l : list Language) (f : nat -> Language -> @Element AsyncFn),
             (forall i x, classNames (f i x) = []) ->
             flat_map classNames (imap f l) = []).
  { induction l as [|x l IH]; intros f Hf; [done |].
    rewrite imap_cons. simpl. rewrite Hf. simpl. apply IH. intros; apply Hf. }
  assert (Heq : flat_map classNames (rendered_cells css BuildKey h r) =
    [ css <$> tableStyles (mantine_theme h) !! "primary";
      css <$> tableStyles (mantine_theme h) !! "noWrap";
      css <$> tableStyles (mantine_theme h) !! "width7em" ]).
  { unfold rendered_cells. simpl. rewrite app_nil_r, Hbadges by done.
    by rewrite !lookup_fmap. }
  split; [exact Heq |]. rewrite Heq.
  rewrite tableStyles_primary, tableStyles_noWrap, tableStyles_width7em.
  repeat constructor; by eexists.
Qed.

(** The cells of a record depend on the hook results only through the
    download mutation and the selector that the theme gives for "sm": hook
    results that agree on these render the same cells, whatever the series
    action, the pagination result and the rest of the theme. *)
Theorem cells_read_download_and_sm_selector h h' r :
  useEpisodeSubtitleModification h = useEpisodeSubtitleModification h' ->
  smallerThan (fn (mantine_theme h)) "sm" = smallerThan (fn (mantine_theme h')) "sm" ->
  (fun c => renderCell c h r) <$> columns css BuildKey () =
  (fun c => renderCell c h' r) <$> columns css BuildKey ().
Proof.
  intros Hdownload Hsm. simpl.
  unfold renderCell, Cell_Name, Cell_episodeTitle, Cell_Path, Cell_Missing. simpl.
  rewrite !lookup_fmap, !tableStyles_noWrap, !tableStyles_width7em,
    !tableStyles_primary, Hdownload, Hsm. reflexivity.
Qed.

(** The props that a render pass hands to the view depend on the hook
    results only through the series action's [mutateAsync] and the
    pagination result: a change of the theme or of the state of the download
    mutation re-renders the page with the same props and the same memo
    cell. *)
Theorem view_props_read_series_action_and_query h h'
    (cell : option (MemoCell (list (@Column AsyncFn Query)) Z)) :
  mutateAsync (useSeriesAction h) = mutateAsync (useSeriesAction h') ->
  useEpisodeWantedPagination h = useEpisodeWantedPagination h' ->
  WantedSeriesView css BuildKey h cell = WantedSeriesView css BuildKey h' cell.
Proof.
  intros Hfn Hquery. unfold WantedSeriesView.
  destruct (useMemo (columns css BuildKey) [] cell) as [cols cell'].
  by rewrite Hfn, Hquery.
Qed.

Lemma tableStyles_select (th : MantineTheme) :
  tableStyles th !! "select" =
    Some (<[smallerThan (fn th) "sm" := CSSObj {[ "minWidth" := CSSStr "10rem" ]}]>
            {[ "display" := CSSStr "inline-block" ]}).
Proof.
  unfold tableStyles, object_literal at 1. simpl foldl.
  rewrite !lookup_insert_ne by done. by rewrite lookup_insert_eq.
Qed.

(** Of the presets only [primary] and [select] read the theme: every other
    style name has the same rule set, and the same class, under any two
    themes. *)
Theorem only_primary_and_select_read_theme (th th' : MantineTheme) (k : string) :
  k <> "primary" ->
  k <> "select" ->
  tableStyles th !! k = tableStyles th' !! k /\
  classes (useTableStyles css th) !! k = classes (useTableStyles css th') !! k.
Proof.
  intros Hprimary Hselect.
  assert (Hk : tableStyles th !! k = tableStyles th' !! k).
  { unfold tableStyles, object_literal. simpl foldl.
    rewrite !lookup_insert. repeat case_decide; congruence. }
  split; [exact Hk |]. by rewrite !classes_lookup, Hk.
Qed.

(** The presets [primary] and [select] hold their responsive rule, a minimal
    width of 12rem and of 10rem, under the selector that the theme gives for
    "sm", for every theme; they also hold [display: inline-block] exactly
    when that selector is not the property name "display" itself, since a
    later key of the literal replaces an equal earlier one. *)
Theorem responsive_presets (th : MantineTheme) :
  tableStyles th !! "primary" ≫= (.!! smallerThan (fn th) "sm") =
    Some (CSSObj {[ "minWidth" := CSSStr "12rem" ]}) /\
  tableStyles th !! "select" ≫= (.!! smallerThan (fn th) "sm") =
    Some (CSSObj {[ "minWidth" := CSSStr "10rem" ]}) /\
  (tableStyles th !! "primary" ≫= (.!! "display") = Some (CSSStr "inline-block")
     <-> smallerThan (fn th) "sm" <> "display") /\
  (tableStyles th !! "select" ≫= (.!! "display") = Some (CSSStr "inline-block")
     <-> smallerThan (fn th) "sm" <> "display") /\
  (forall k : string,
     k <> "display" -> k <> smallerThan (fn th) "sm" ->
     tableStyles th !! "primary" ≫= (.!! k) = None /\
     tableStyles th !! "select" ≫= (.!! k) = None).
Proof.
  rewrite tableStyles_primary, tableStyles_select. simpl.
  rewrite !lookup_insert_eq.
  split; [done |]. split; [done |].
  rewrite !lookup_insert.
  split; [| split].
  - case_decide; [done |]. by rewrite lookup_singleton_eq.
  - case_decide; [done |]. by rewrite lookup_singleton_eq.
  - intros k Hdisplay Hsel. rewrite !lookup_insert.
    case_decide; [done |]. by rewrite lookup_singleton_ne.
Qed.

(** The loading flag of the download mutation is shared: in one render pass
    all badges of a record, and of every record, have the same colour, grey
    while the mutation is loading and none otherwise, whichever badge started
    the download. *)
Theorem loading_colours_every_badge h r :
  color_of <$> badges BuildKey h r =
    replicate (length (missing_subtitles r))
      (if isLoading (download (useEpisodeSubtitleModification h))
       then Some "gray" else None).
Proof.
  rewrite badges_imap.
  rewrite (fmap_imap_index_free _ _
             (fun _ => if isLoading (download (useEpisodeSubtitleModification h))
                       then Some "gray" else None)) by done.
  induction (missing_subtitles r) as [|x l IH]; simpl; [done | by f_equal].
Qed.

End Page_properties.

(** ** The further properties on the concrete page *)

(** The example key builder is injective in its index: a decimal numeral
    holds no dash, so the numeral ends at the first dash of the key. *)
Lemma dash_free_app (s1 s2 : string) :
  dash_free s1 -> dash_free s2 -> dash_free (s1 +:+ s2).
Proof. induction s1 as [|c s1 IH]; simpl; [done |]. intros [? ?] ?. auto. Qed.

Lemma pretty_N_char_no_dash (x : N) : pretty_N_char x <> "-"%char.
Proof. unfold pretty_N_char. by repeat case_match. Qed.

Lemma pretty_N_go_dash_free (x : N) (s : string) :
  exists d, pretty_N_go x s = d +:+ s /\ dash_free d.
Proof.
  revert s. induction (N.lt_wf_0 x) as [x _ IH]; intros s.
  destruct (decide (x = 0%N)) as [-> | Hx].
  - exists "". by rewrite pretty_N_go_0.
  - rewrite pretty_N_go_step by lia.
    destruct (IH (x `div` 10)%N ltac:(apply N.div_lt; lia)
                (String (pretty_N_char (x `mod` 10)) s)) as (d & Heq & Hd).
    rewrite Heq. exists (d +:+ String (pretty_N_char (x `mod` 10)) "").
    split.
    + clear. induction d as [|c d IHd]; [done |].
      exact (f_equal (String c) IHd).
    + apply dash_free_app; [done |]. simpl. split; [| done].
      apply pretty_N_char_no_dash.
Qed.

Lemma pretty_nat_dash_free (n : nat) : dash_free (pretty n).
Proof.
  unfold pretty, pretty_nat, pretty, pretty_N. case_decide; [by simpl |].
  destruct (pretty_N_go_dash_free (N.of_nat n) "") as (d & Heq & Hd).
  rewrite Heq. apply dash_free_app; [done | by simpl].
Qed.

Lemma dash_free_prefix_inj (d1 d2 c1 c2 : string) :
  dash_free d1 -> dash_free d2 ->
  d1 +:+ "-" +:+ c1 = d2 +:+ "-" +:+ c2 -> d1 = d2.
Proof.
  revert d2. induction d1 as [|a d1 IH]; intros [|b d2] H1 H2 Heq.
  - done.
  - change (String "-" c1 = String b (d2 +:+ "-" +:+ c2)) in Heq.
    destruct H2 as [Hb _]. by injection Heq as <- _.
  - change (String a (d1 +:+ "-" +:+ c1) = String "-" c2) in Heq.
    destruct H1 as [Ha _]. by injection Heq as -> _.
  - change (String a (d1 +:+ "-" +:+ c1) = String b (d2 +:+ "-" +:+ c2)) in Heq.
    destruct H1 as [_ H1], H2 as [_ H2]. injection Heq as -> Heq.
    f_equal. by apply IH.
Qed.

Lemma example_BuildKey_index_inj (i j : nat) (c d : string) :
  example_BuildKey i c = example_BuildKey j d -> i = j.
Proof.
  unfold example_BuildKey. intros Heq.
  apply (inj pretty).
  eapply dash_free_prefix_inj; [apply pretty_nat_dash_free .. | exact Heq].
Qed.

(** Three clicks on the third badge of the record that names English twice. *)
Lemma click_badge_repeatedly_witness :
  missing_subtitles example_episode_repeated !! 2 = Some example_english /\
  exists badge,
    badges example_BuildKey (example_hooks false) example_episode_repeated !! 2
      = Some badge /\
    Nat.iter 3 (click badge) [] =
      replicate 3
        (search_task (example_hooks false) example_episode_repeated example_english).
Proof.
  split; [reflexivity |].
  exact (click_badge_repeatedly example_BuildKey (example_hooks false)
           example_episode_repeated 2 3 example_english [] eq_refl).
Defined.

(** The first and the second badge of that record: English and French. *)
Lemma badges_register_same_task_iff_same_entry_witness :
  missing_subtitles example_episode_repeated !! 0 = Some example_english /\
  missing_subtitles example_episode_repeated !! 1 = Some example_french_forced /\
  exists badge badge',
    badges example_BuildKey (example_hooks false) example_episode_repeated !! 0
      = Some badge /\
    badges example_BuildKey (example_hooks false) example_episode_repeated !! 1
      = Some badge' /\
    (click badge [] = click badge' [] <-> example_english = example_french_forced).
Proof.
  split; [reflexivity |]. split; [reflexivity |].
  exact (badges_register_same_task_iff_same_entry example_BuildKey
           (example_hooks false) example_episode_repeated 0 1
           example_english example_french_forced eq_refl eq_refl).
Defined.

(** The keys of the record that names English twice. *)
Lemma badge_keys_distinct_witness :
  (forall (i j : nat) (c d : string),
     example_BuildKey i c = example_BuildKey j d -> i = j) /\
  NoDup (key_of <$>
           badges example_BuildKey (example_hooks false) example_episode_repeated).
Proof.
  split; [exact example_BuildKey_index_inj |].
  exact (badge_keys_distinct example_BuildKey (example_hooks false)
           example_episode_repeated example_BuildKey_index_inj).
Defined.

(** The links of the two example records, with series identifiers 1 and 5. *)
Lemma name_link_target_inj_witness :
  Number_isSafeInteger (sonarrSeriesId example_episode) /\
  Number_isSafeInteger (sonarrSeriesId example_episode_repeated) /\
  (to_of (name_cell example_css (example_hooks false) example_episode) =
   to_of (name_cell example_css (example_hooks true) example_episode_repeated)
   <-> sonarrSeriesId example_episode = sonarrSeriesId example_episode_repeated).
Proof.
  assert (H1 : Number_isSafeInteger (sonarrSeriesId example_episode))
    by (unfold Number_isSafeInteger; simpl; lia).
  assert (H5 : Number_isSafeInteger (sonarrSeriesId example_episode_repeated))
    by (unfold Number_isSafeInteger; simpl; lia).
  split; [exact H1 |]. split; [exact H5 |].
  exact (name_link_target_inj example_css (example_hooks false)
           (example_hooks true) example_episode example_episode_repeated H1 H5).
Defined.

(** Hook results that differ in the theme away from "sm", in the series
    action and in nothing the cells read. *)
Lemma cells_read_download_and_sm_selector_witness :
  useEpisodeSubtitleModification (example_hooks false) =
    useEpisodeSubtitleModification example_hooks_other /\
  smallerThan (fn (mantine_theme (example_hooks false))) "sm" =
    smallerThan (fn (mantine_theme example_hooks_other)) "sm" /\
  (fun c => renderCell c (example_hooks false) example_episode_repeated)
    <$> columns example_css example_BuildKey () =
  (fun c => renderCell c example_hooks_other example_episode_repeated)
    <$> columns example_css example_BuildKey ().
Proof.
  split; [reflexivity |]. split; [reflexivity |].
  exact (cells_read_download_and_sm_selector example_css example_BuildKey
           (example_hooks false) example_hooks_other example_episode_repeated
           eq_refl eq_refl).
Defined.

(** A first render pass at rest and one with a download in flight. *)
Lemma view_props_read_series_action_and_query_witness :
  mutateAsync (useSeriesAction (example_hooks false)) =
    mutateAsync (useSeriesAction (example_hooks true)) /\
  useEpisodeWantedPagination (example_hooks false) =
    useEpisodeWantedPagination (example_hooks true) /\
  WantedSeriesView example_css example_BuildKey (example_hooks false) None =
  WantedSeriesView example_css example_BuildKey (example_hooks true) None.
Proof.
  split; [reflexivity |]. split; [reflexivity |].
  exact (view_props_read_series_action_and_query example_css example_BuildKey
           (example_hooks false) (example_hooks true) None eq_refl eq_refl).
Defined.

(** The preset [width7em] under two themes that differ on "sm". *)
Lemma only_primary_and_select_read_theme_witness :
  "width7em" <> "primary" /\
  "width7em" <> "select" /\
  smallerThan (fn example_theme) "sm" <> smallerThan (fn example_theme_print) "sm" /\
  tableStyles example_theme !! "width7em" =
    tableStyles example_theme_print !! "width7em" /\
  classes (useTableStyles example_css example_theme) !! "width7em" =
    classes (useTableStyles example_css example_theme_print) !! "width7em".
Proof.
  split; [discriminate |]. split; [discriminate |]. split; [discriminate |].
  exact (only_primary_and_select_read_theme example_css example_theme
           example_theme_print "width7em"
           ltac:(discriminate) ltac:(discriminate)).
Defined.
